(** * Role config group endpoints of cm_api

    A shallow embedding of [cm_api/endpoints/role_config_groups.py]: the
    path builders, the module-level operations and the methods of
    [ApiRoleConfigGroup], over an injected transport ([resource_root]).

    Python values that the module only passes around are kept as small
    inductive types; exceptions are an error type; the transport is a
    function on a world state, and every call through it is appended to a
    log so that the number of round trips can be stated. *)

From Stdlib Require Import String Ascii DecimalString List Bool ZArith Lia.
Import ListNotations.
Local Open Scope list_scope.
Local Open Scope string_scope.

Set Implicit Arguments.
Set Warnings "-register-all".

(** ** Python values, exceptions *)

(** The values the module receives for names and for [view]: [None] or a
    string. *)
Inductive pyval : Type :=
  | PyNone
  | PyStr (s : string).

(** Exceptions the client can surface. [TransportError] stands for whatever
    the injected transport raises; the others are raised by the
    interpreter or by the decoders. *)
Inductive exn : Type :=
  | TransportError (status : Z) (msg : string)
  | IndexError
  | KeyError (key : string)
  | TypeError (msg : string)
  | ValueError (msg : string)
  | AttributeError (attr : string).

Inductive result (A : Type) : Type :=
  | Ok (a : A)
  | Raise (e : exn).

Arguments Ok {A} a.
Arguments Raise {A} e.

Definition rbind {A B} (r : result A) (k : A -> result B) : result B :=
  match r with
  | Ok a => k a
  | Raise e => Raise e
  end.

Definition rmap {A B} (f : A -> B) (r : result A) : result B :=
  rbind r (fun a => Ok (f a)).

(** Python truth value testing, one instance per type of value. *)
Class Truthy (A : Type) := truthy : A -> bool.

#[export] Instance Truthy_string : Truthy string :=
  fun s => match s with EmptyString => false | String _ _ => true end.

#[export] Instance Truthy_pyval : Truthy pyval :=
  fun v => match v with PyNone => false | PyStr s => truthy s end.

#[export] Instance Truthy_list {A} : Truthy (list A) :=
  fun l => match l with [] => false | _ :: _ => true end.

(** [str(v)], as the [%s] conversion applies it. *)
Definition py_str (v : pyval) : string :=
  match v with
  | PyNone => "None"
  | PyStr s => s
  end.

(** [v == s] for a string literal [s]. *)
Definition py_eq_str (v : pyval) (s : string) : bool :=
  match v with
  | PyNone => false
  | PyStr t => String.eqb t s
  end.

(** [template % args] for templates built from literal text, [%s] and
    [%%]. Arguments are consumed left to right; too few or too many
    arguments raise [TypeError], another conversion raises
    [ValueError]. *)
Fixpoint py_format (template : string) (args : list pyval) : result string :=
  match template with
  | EmptyString =>
      match args with
      | [] => Ok EmptyString
      | _ :: _ =>
          Raise (TypeError "not all arguments converted during string formatting")
      end
  | String c rest =>
      if Ascii.eqb c "%"%char then
        match rest with
        | EmptyString => Raise (ValueError "incomplete format")
        | String d rest' =>
            if Ascii.eqb d "s"%char then
              match args with
              | [] => Raise (TypeError "not enough arguments for format string")
              | a :: args' =>
                  rmap (fun t => py_str a ++ t) (py_format rest' args')
              end
            else if Ascii.eqb d "%"%char then
              rmap (String "%"%char) (py_format rest' args)
            else Raise (ValueError "unsupported format character")
        end
      else rmap (String c) (py_format rest args)
  end.

(** [l[i]] on a Python list: negative indices count from the end, an index
    out of range raises [IndexError]. *)
Definition py_getitem {A} (l : list A) (i : Z) : result A :=
  let n := Z.of_nat (length l) in
  let j := if (i <? 0)%Z then (i + n)%Z else i in
  if ((j <? 0) || (n <=? j))%Z then Raise IndexError
  else match nth_error l (Z.to_nat j) with
       | Some a => Ok a
       | None => Raise IndexError
       end.

(** ** Paths *)

Definition ROLE_CONFIG_GROUPS_PATH : string :=
  "/clusters/%s/services/%s/roleConfigGroups".
Definition CM_ROLE_CONFIG_GROUPS_PATH : string :=
  "/cm/service/roleConfigGroups".

Definition _get_role_config_groups_path (cluster_name service_name : pyval)
  : result string :=
  if truthy cluster_name
  then py_format ROLE_CONFIG_GROUPS_PATH [cluster_name; service_name]
  else Ok CM_ROLE_CONFIG_GROUPS_PATH.

Definition _get_role_config_group_path (cluster_name service_name name : pyval)
  : result string :=
  rbind (_get_role_config_groups_path cluster_name service_name) (fun path =>
  py_format "%s/%s" [PyStr path; name]).

(** ** JSON values and the wire *)

(** What the transport hands back: a parsed JSON-compatible structure.
    Objects keep their fields in order, as an association list. *)
Inductive json : Type :=
  | JNull
  | JBool (b : bool)
  | JNum (n : Z)
  | JStr (s : string)
  | JArr (items : list json)
  | JObj (fields : list (string * json)).

(** [dic.get(key)] on an association list: the first binding wins. *)
Fixpoint dict_get {V} (key : string) (d : list (string * V)) : option V :=
  match d with
  | [] => None
  | (k, v) :: d' => if String.eqb k key then Some v else dict_get key d'
  end.

(** [dic[key] = v]: overwrite the binding in place, or add it at the end. *)
Fixpoint dict_set {V} (key : string) (v : V) (d : list (string * V))
  : list (string * V) :=
  match d with
  | [] => [(key, v)]
  | (k, w) :: d' =>
      if String.eqb k key then (k, v) :: d' else (k, w) :: dict_set key v d'
  end.

Definition json_of_pyval (v : pyval) : json :=
  match v with
  | PyNone => JNull
  | PyStr s => JStr s
  end.

Inductive verb : Type := GET | POST | PUT | DELETE.

(** One call on the transport: [get(path, params)], [post(path, data)],
    [put(path, data)] or [delete(path)]. *)
Record request : Type := mkRequest {
  rq_verb : verb;
  rq_path : string;
  rq_params : option (list (string * pyval));
  rq_data : option string
}.

(** The idiom [a and b or None]: [a and b] is [b] when [a] is truthy and
    [a] otherwise; [x or None] is [x] when [x] is truthy and [None]
    otherwise. A falsy [a] is itself falsy in the second test, so the
    value is always [b] or [None]. *)
Definition and_or_None {A B} `{Truthy A} `{Truthy B} (a : A) (b : B)
  : option B :=
  if truthy a then (if truthy b then Some b else None) else None.

(** [Traversable]-style map over a list of decodes: the first failure
    wins, as in a list comprehension. *)
Fixpoint map_result {A B} (f : A -> result B) (l : list A) : result (list B) :=
  match l with
  | [] => Ok []
  | a :: l' =>
      rbind (f a) (fun b => rbind (map_result f l') (fun bs => Ok (b :: bs)))
  end.

(** ** The client, over an injected transport *)

Section Client.

(** The state of the remote side, whatever it is. *)
Context {World : Type}.

(** [json.dumps] of the Python standard library. *)
Variable json_dumps : json -> string.

(** The value [json_to_config] gives its [full] argument when the caller
    leaves it out. [cm_api/endpoints/types.py], which sets it, is not part
    of the sources, and nothing else states it: it is left open. *)
Variable json_to_config_full_default : bool.

(** The injected [resource_root]: it answers a request with a parsed body
    or raises, and may change the remote state. *)
Definition Resource : Type := request -> World -> result json * World.

(** [calls] records every request handed to a transport, oldest first. It
    is instrumentation: no operation reads it. *)
Record session : Type := mkSession {
  world : World;
  calls : list request
}.

(** Computations that may call the transport and may raise. The session
    survives an exception. *)
Definition M (A : Type) : Type := session -> result A * session.

Definition ret {A} (a : A) : M A := fun s => (Ok a, s).

Definition bind {A B} (m : M A) (k : A -> M B) : M B :=
  fun s =>
    match m s with
    | (Ok a, s') => k a s'
    | (Raise e, s') => (Raise e, s')
    end.

Definition lift {A} (r : result A) : M A := fun s => (r, s).

Definition invoke (resource_root : Resource) (rq : request) : M json :=
  fun s =>
    let (r, w) := resource_root rq (world s) in
    (r, {| world := w; calls := (calls s ++ [rq])%list |}).

Definition Resource_get (resource_root : Resource) (path : string)
    (params : option (list (string * pyval))) : M json :=
  invoke resource_root (mkRequest GET path params None).

Definition Resource_post (resource_root : Resource) (path : string)
    (data : option string) : M json :=
  invoke resource_root (mkRequest POST path None data).

Definition Resource_put (resource_root : Resource) (path : string)
    (data : option string) : M json :=
  invoke resource_root (mkRequest PUT path None data).

Definition Resource_delete (resource_root : Resource) (path : string)
    : M json :=
  invoke resource_root (mkRequest DELETE path None None).

(** *** Objects *)

(** Modelled from the spec: [ApiServiceRef] of [types.py], absent from
    the sources: the back-reference a group carries, its cluster and its
    service. *)
Record ApiServiceRef : Type := mkServiceRef {
  clusterName : pyval;
  serviceName : pyval
}.

(** [ApiRoleConfigGroup]: the attributes of [RW_ATTR] and [RO_ATTR], and
    the resource root the object was built with. A read-only attribute
    the server did not supply is [None]. *)
Record ApiRoleConfigGroup : Type := mkGroup {
  rcg_resource_root : Resource;
  rcg_name : pyval;
  rcg_displayName : pyval;
  rcg_roleType : pyval;
  rcg_config : option json;
  rcg_base : option bool;
  rcg_serviceRef : option ApiServiceRef
}.

Definition RO_ATTR : list string := ["base"; "serviceRef"].
Definition RW_ATTR : list string :=
  ["name"; "displayName"; "roleType"; "config"].

(** [__init__(self, resource_root, name, displayName, roleType,
    config = None)]: the arguments become the attributes; the read-only
    ones are not set by the client. *)
Definition ApiRoleConfigGroup_init (resource_root : Resource)
    (name displayName roleType : pyval) (config : option json)
    : ApiRoleConfigGroup :=
  {| rcg_resource_root := resource_root;
     rcg_name := name;
     rcg_displayName := displayName;
     rcg_roleType := roleType;
     rcg_config := config;
     rcg_base := None;
     rcg_serviceRef := None |}.

Definition _get_resource_root (self : ApiRoleConfigGroup) : Resource :=
  rcg_resource_root self.

(** Modelled from the spec: [ApiRole] of [cm_api/endpoints/roles.py],
    which is not part of the sources: a role instance of a service, with
    its name, its role type and the host it runs on, all three taken by
    the constructor. *)
Record ApiRole : Type := mkRole {
  role_resource_root : Resource;
  role_name : pyval;
  role_type : pyval;
  role_hostId : pyval
}.

(** Modelled from the spec: [ApiList] of [cm_api/endpoints/types.py],
    which is not part of the sources: a list of typed objects, carried on
    the wire in an envelope under [LIST_KEY]. *)
Record ApiList (A : Type) : Type := mkApiList {
  objects : list A
}.

Definition LIST_KEY : string := "items".

(** Modelled from the spec: [ApiList.__getitem__], absent with
    [types.py]; indexing the list of objects. *)
Definition ApiList_getitem {A} (l : ApiList A) (i : Z) : result A :=
  py_getitem (objects l) i.

(** Modelled from the spec: [ApiList.to_json_dict], absent with
    [types.py]: the envelope with every member serialized. *)
Definition ApiList_to_json_dict {A} (member : A -> json) (l : ApiList A)
  : json :=
  JObj [(LIST_KEY, JArr (map member (objects l)))].

(** Modelled from the spec: [ApiList.from_json_dict], absent with
    [types.py]: the members of the envelope, decoded in order into the
    member class. A body without the envelope raises. *)
Definition ApiList_from_json_dict {A}
    (member : json -> Resource -> result A) (dic : json)
    (resource_root : Resource) : result (ApiList A) :=
  match dic with
  | JObj fields =>
      match dict_get LIST_KEY fields with
      | Some (JArr items) =>
          rmap (@mkApiList A)
               (map_result (fun x => member x resource_root) items)
      | Some _ => Raise (TypeError "items is not a list")
      | None => Raise (KeyError LIST_KEY)
      end
  | _ => Raise (TypeError "response is not an object")
  end.

(** *** Attribute decoding *)

(** Modelled from the spec: an attribute the data model types as a
    string is a JSON string on the wire, or [null] for [None]. *)
Definition str_attr (v : json) : result pyval :=
  match v with
  | JNull => Ok PyNone
  | JStr s => Ok (PyStr s)
  | _ => Raise (TypeError "attribute is not a string")
  end.

(** Modelled from the spec: an attribute that the constructor takes
    without default; its absence from the body is the [TypeError] of the
    missing argument. *)
Definition required_attr (key : string) (fields : list (string * json))
  : result pyval :=
  match dict_get key fields with
  | Some v => str_attr v
  | None => Raise (TypeError "missing constructor argument")
  end.

(** Modelled from the spec: an attribute that may be absent from the
    body, and is [None] then. *)
Definition optional_attr (key : string) (fields : list (string * json))
  : result pyval :=
  match dict_get key fields with
  | Some v => str_attr v
  | None => Ok PyNone
  end.

(** Modelled from the spec: the read-only marker [base], a boolean when
    the server supplies it. *)
Definition base_attr (fields : list (string * json)) : result (option bool) :=
  match dict_get "base" fields with
  | Some (JBool b) => Ok (Some b)
  | Some JNull | None => Ok None
  | Some _ => Raise (TypeError "base is not a boolean")
  end.

(** Modelled from the spec: the read-only [serviceRef], an object with
    the cluster and the service when the server supplies it. *)
Definition serviceRef_attr (fields : list (string * json))
  : result (option ApiServiceRef) :=
  match dict_get "serviceRef" fields with
  | Some (JObj ref) =>
      rbind (optional_attr "clusterName" ref) (fun c =>
      rbind (optional_attr "serviceName" ref) (fun s =>
      Ok (Some (mkServiceRef c s))))
  | Some JNull | None => Ok None
  | Some _ => Raise (TypeError "serviceRef is not an object")
  end.

(** Modelled from the spec: [BaseApiObject.from_json_dict] of
    [cm_api/endpoints/types.py], absent from the sources, at class
    [ApiRoleConfigGroup]: the read-write attributes of the body go
    through the constructor, the read-only ones are taken from the body
    when the server supplied them. *)
Definition ApiRoleConfigGroup_from_json_dict (dic : json)
    (resource_root : Resource) : result ApiRoleConfigGroup :=
  match dic with
  | JObj fields =>
      rbind (required_attr "name" fields) (fun name =>
      rbind (required_attr "displayName" fields) (fun displayName =>
      rbind (required_attr "roleType" fields) (fun roleType =>
      rbind (base_attr fields) (fun base =>
      rbind (serviceRef_attr fields) (fun serviceRef =>
      Ok {| rcg_resource_root := resource_root;
            rcg_name := name;
            rcg_displayName := displayName;
            rcg_roleType := roleType;
            rcg_config := dict_get "config" fields;
            rcg_base := base;
            rcg_serviceRef := serviceRef |})))))
  | _ => Raise (TypeError "response is not an object")
  end.

(** Modelled from the spec: reading a read-write attribute by name, as
    [BaseApiObject.to_json_dict] of the absent [types.py] does for each
    entry of [RW_ATTR]. *)
Definition ApiRoleConfigGroup_getattr (self : ApiRoleConfigGroup)
    (attr : string) : option json :=
  if String.eqb attr "name" then Some (json_of_pyval (rcg_name self))
  else if String.eqb attr "displayName"
    then Some (json_of_pyval (rcg_displayName self))
  else if String.eqb attr "roleType"
    then Some (json_of_pyval (rcg_roleType self))
  else if String.eqb attr "config"
    then Some (match rcg_config self with Some c => c | None => JNull end)
  else None.

(** Modelled from the spec: [BaseApiObject.to_json_dict], absent with
    [types.py]: the whole mutable attribute set, in the order of
    [RW_ATTR]. *)
Definition ApiRoleConfigGroup_to_json_dict (self : ApiRoleConfigGroup)
  : json :=
  JObj (flat_map
          (fun attr =>
             match ApiRoleConfigGroup_getattr self attr with
             | Some v => [(attr, v)]
             | None => []
             end)
          RW_ATTR).

(** Modelled from the spec: the reference of a role to its host, an
    object that holds the host's identifier; the constructor of a role
    takes it without default. *)
Definition hostRef_attr (fields : list (string * json)) : result pyval :=
  match dict_get "hostRef" fields with
  | Some (JObj ref) => required_attr "hostId" ref
  | Some _ => Raise (TypeError "hostRef is not an object")
  | None => Raise (TypeError "missing constructor argument")
  end.

(** Modelled from the spec: [BaseApiObject.from_json_dict] at class
    [ApiRole] ([roles.py] and [types.py] are absent): name, role type and
    host reference go through the constructor, which requires them. *)
Definition ApiRole_from_json_dict (dic : json) (resource_root : Resource)
  : result ApiRole :=
  match dic with
  | JObj fields =>
      rbind (required_attr "name" fields) (fun name =>
      rbind (required_attr "type" fields) (fun type =>
      rbind (hostRef_attr fields) (fun hostId =>
      Ok (mkRole resource_root name type hostId))))
  | _ => Raise (TypeError "response is not an object")
  end.

(** *** Configuration views *)

(** Modelled from the spec: the rich per-item object of the full view
    ([ApiConfig] of [types.py], absent): origin, default and validation
    state next to the name and value. *)
Record ApiConfig : Type := mkConfig {
  cfg_name : string;
  cfg_value : pyval;
  cfg_origin : pyval;
  cfg_default : pyval;
  cfg_validationState : pyval
}.

(** Modelled from the spec: a value of a decoded configuration mapping,
    a plain string in the summary view, a rich object in the full view. *)
Inductive config_value : Type :=
  | PlainValue (s : string)
  | RichValue (c : ApiConfig).



(** Modelled from the spec: one item of a configuration body, decoded to
    its name and its value in the requested mode (part of
    [json_to_config]). *)
Definition config_entry (full : bool) (entry : json)
  : result (string * config_value) :=
  match entry with
  | JObj fields =>
      match dict_get "name" fields with
      | Some (JStr k) =>
          if full then
            rbind (optional_attr "value" fields) (fun v =>
            rbind (optional_attr "origin" fields) (fun o =>
            rbind (optional_attr "default" fields) (fun d =>
            rbind (optional_attr "validationState" fields) (fun st =>
            Ok (k, RichValue (mkConfig k v o d st))))))
          else
            match dict_get "value" fields with
            | Some (JStr v) => Ok (k, PlainValue v)
            | Some _ => Raise (TypeError "value is not a string")
            | None => Raise (KeyError "value")
            end
      | Some _ => Raise (TypeError "name is not a string")
      | None => Raise (KeyError "name")
      end
  | _ => Raise (TypeError "config item is not an object")
  end.

(** Modelled from the spec: [json_to_config(dic, full)] of
    [cm_api/endpoints/types.py], absent from the sources: the items of
    the envelope become a mapping from the item's name to its value, a
    plain string in summary mode and a rich object when [full] holds. *)
Definition json_to_config (dic : json) (full : bool)
  : result (list (string * config_value)) :=
  match dic with
  | JObj fields =>
      match dict_get LIST_KEY fields with
      | Some (JArr items) =>
          rmap (fun entries =>
                  fold_left (fun config kv => dict_set (fst kv) (snd kv) config)
                            entries [])
               (map_result (config_entry full) items)
      | Some _ => Raise (TypeError "items is not a list")
      | None => Raise (KeyError LIST_KEY)
      end
  | _ => Raise (TypeError "response is not an object")
  end.

(** Modelled from the spec: [config_to_json] of [types.py], absent: the
    key to value list of the supplied mapping, and of nothing else, in
    the envelope, serialized. *)
Definition config_to_json (config : list (string * pyval)) : string :=
  json_dumps
    (JObj [(LIST_KEY,
            JArr (map (fun kv => JObj [("name", JStr (fst kv));
                                       ("value", json_of_pyval (snd kv))])
                      config))]).

Notation "x <- m ;; k" := (bind m (fun x => k))
  (at level 61, m at next level, right associativity).

(** *** Module-level operations *)

(** The value of [cluster_name] when the caller leaves it out. *)
Definition default_cluster_name : pyval := PyStr "default".

Definition create_role_config_groups (resource_root : Resource)
    (service_name : pyval) (apigroup_list : ApiList ApiRoleConfigGroup)
    (cluster_name : pyval) : M (ApiList ApiRoleConfigGroup) :=
  let body :=
    json_dumps (ApiList_to_json_dict ApiRoleConfigGroup_to_json_dict
                                     apigroup_list) in
  path <- lift (_get_role_config_groups_path cluster_name service_name) ;;
  resp <- Resource_post resource_root path (Some body) ;;
  lift (ApiList_from_json_dict ApiRoleConfigGroup_from_json_dict resp
                               resource_root).

Definition create_role_config_group (resource_root : Resource)
    (service_name name display_name role_type cluster_name : pyval)
    : M ApiRoleConfigGroup :=
  let apigroup :=
    ApiRoleConfigGroup_init resource_root name display_name role_type None in
  let apigroup_list := mkApiList [apigroup] in
  created <- create_role_config_groups resource_root service_name
                                       apigroup_list cluster_name ;;
  lift (ApiList_getitem created 0).

Definition _get_role_config_group (resource_root : Resource) (path : string)
    : M ApiRoleConfigGroup :=
  dic <- Resource_get resource_root path None ;;
  lift (ApiRoleConfigGroup_from_json_dict dic resource_root).

Definition get_role_config_group (resource_root : Resource)
    (service_name name cluster_name : pyval) : M ApiRoleConfigGroup :=
  path <- lift (_get_role_config_group_path cluster_name service_name name) ;;
  _get_role_config_group resource_root path.

Definition get_all_role_config_groups (resource_root : Resource)
    (service_name cluster_name : pyval) : M (ApiList ApiRoleConfigGroup) :=
  path <- lift (_get_role_config_groups_path cluster_name service_name) ;;
  dic <- Resource_get resource_root path None ;;
  lift (ApiList_from_json_dict ApiRoleConfigGroup_from_json_dict dic
                               resource_root).

Definition update_role_config_group (resource_root : Resource)
    (service_name name : pyval) (apigroup : ApiRoleConfigGroup)
    (cluster_name : pyval) : M ApiRoleConfigGroup :=
  let body := json_dumps (ApiRoleConfigGroup_to_json_dict apigroup) in
  path <- lift (_get_role_config_group_path cluster_name service_name name) ;;
  resp <- Resource_put resource_root path (Some body) ;;
  lift (ApiRoleConfigGroup_from_json_dict resp resource_root).

Definition delete_role_config_group (resource_root : Resource)
    (service_name name cluster_name : pyval) : M ApiRoleConfigGroup :=
  path <- lift (_get_role_config_group_path cluster_name service_name name) ;;
  resp <- Resource_delete resource_root path ;;
  lift (ApiRoleConfigGroup_from_json_dict resp resource_root).

(** The body of both role moves: [{ApiList.LIST_KEY : role_names}]. *)
Definition role_names_dict (role_names : list string) : json :=
  JObj [(LIST_KEY, JArr (map JStr role_names))].

Definition move_roles (resource_root : Resource)
    (service_name name : pyval) (role_names : list string)
    (cluster_name : pyval) : M (ApiList ApiRole) :=
  p <- lift (_get_role_config_group_path cluster_name service_name name) ;;
  let path := p ++ "/roles" in
  resp <- Resource_put resource_root path
            (Some (json_dumps (role_names_dict role_names))) ;;
  lift (ApiList_from_json_dict ApiRole_from_json_dict resp resource_root).

Definition move_roles_to_base_role_config_group (resource_root : Resource)
    (service_name : pyval) (role_names : list string)
    (cluster_name : pyval) : M (ApiList ApiRole) :=
  p <- lift (_get_role_config_groups_path cluster_name service_name) ;;
  let path := p ++ "/roles" in
  resp <- Resource_put resource_root path
            (Some (json_dumps (role_names_dict role_names))) ;;
  lift (ApiList_from_json_dict ApiRole_from_json_dict resp resource_root).

(** *** Methods of [ApiRoleConfigGroup] *)

(** [self.serviceRef.clusterName] on an object without a service
    reference is an attribute lookup on [None]. *)
Definition _path (self : ApiRoleConfigGroup) : result string :=
  match rcg_serviceRef self with
  | Some ref =>
      _get_role_config_group_path (clusterName ref) (serviceName ref)
                                  (rcg_name self)
  | None => Raise (AttributeError "clusterName")
  end.

(** [__str__]: the name is read first, then the two attributes of the
    service reference. *)
Definition __str__ (self : ApiRoleConfigGroup) : result string :=
  match rcg_serviceRef self with
  | Some ref =>
      py_format "<ApiRoleConfigGroup>: %s (cluster: %s; service: %s)"
                [rcg_name self; clusterName ref; serviceName ref]
  | None => Raise (AttributeError "clusterName")
  end.

Definition get_config (self : ApiRoleConfigGroup) (view : pyval)
    : M (list (string * config_value)) :=
  p <- lift (_path self) ;;
  let path := p ++ "/config" in
  resp <- Resource_get (_get_resource_root self) path
            (and_or_None view [("view", view)]) ;;
  lift (json_to_config resp (py_eq_str view "full")).

Definition update_config (self : ApiRoleConfigGroup)
    (config : list (string * pyval)) : M (list (string * config_value)) :=
  p <- lift (_path self) ;;
  let path := p ++ "/config" in
  resp <- Resource_put (_get_resource_root self) path
            (Some (config_to_json config)) ;;
  lift (json_to_config resp json_to_config_full_default).

Definition get_all_roles (self : ApiRoleConfigGroup) : M (ApiList ApiRole) :=
  p <- lift (_path self) ;;
  let path := p ++ "/roles" in
  resp <- Resource_get (_get_resource_root self) path None ;;
  lift (ApiList_from_json_dict ApiRole_from_json_dict resp
                               (_get_resource_root self)).

(** The method [move_roles] of the class; it delegates to the
    module-level function of the same name. *)
Definition ApiRoleConfigGroup_move_roles (self : ApiRoleConfigGroup)
    (roles : list string) : M (ApiList ApiRole) :=
  match rcg_serviceRef self with
  | Some ref =>
      move_roles (_get_resource_root self) (serviceName ref) (rcg_name self)
                 roles (clusterName ref)
  | None => lift (Raise (AttributeError "serviceName"))
  end.

End Client.

(** ** What the specification says, as definitions *)

(** The collection path of the specification: the cluster-scoped template
    filled in with the two names, or the fixed cluster-management path. *)
Definition collection_path (cluster_name service_name : pyval) : string :=
  if truthy cluster_name
  then "/clusters/" ++ py_str cluster_name ++ "/services/"
         ++ py_str service_name ++ "/roleConfigGroups"
  else "/cm/service/roleConfigGroups".

(** The singleton path: the collection path, a slash and the name. *)
Definition singleton_path (cluster_name service_name name : pyval) : string :=
  collection_path cluster_name service_name ++ "/" ++ py_str name.

Section Reference.

Context {World : Type}.

(** One synchronous round trip: hand [rq] to the transport, log it,
    and decode the body it answers; an exception of the transport or of
    the decoder goes to the caller. *)
Definition single_call {A} (resource_root : Resource (World := World))
    (rq : request) (decode : json -> result A) : M A :=
  fun s =>
    let (r, w) := resource_root rq (world s) in
    (rbind r decode, mkSession w (calls s ++ [rq])%list).

(** A computation that is exactly one round trip on [resource_root]: one
    request, fixed before the session is known, is handed to the transport
    once, and result, remote state and log are those of that one call. *)
Definition one_round_trip {A} (resource_root : Resource (World := World))
    (m : M (World := World) A) : Prop :=
  exists rq (decode : json -> result A),
    forall s, m s = single_call resource_root rq decode s.

(** The names of the returned roles all occur in the request. *)
Definition names_subset (roles : ApiList (ApiRole (World := World)))
    (role_names : list string) : Prop :=
  incl (map (@role_name World) (objects roles)) (map PyStr role_names).

(** A role as the server lists it: name, role type and host. *)
Record listed_role : Type := mkListed {
  lr_name : string;
  lr_type : string;
  lr_host : string
}.

Definition role_wire (r : listed_role) : json :=
  JObj [("name", JStr (lr_name r)); ("type", JStr (lr_type r));
        ("hostRef", JObj [("hostId", JStr (lr_host r))])].

Definition roles_wire (moved : list listed_role) : json :=
  JObj [("items", JArr (map role_wire moved))].

Definition role_of_wire (resource_root : Resource (World := World))
    (r : listed_role) : ApiRole :=
  mkRole resource_root (PyStr (lr_name r)) (PyStr (lr_type r))
         (PyStr (lr_host r)).

(** A group as the server sends it: every attribute it holds, the
    read-only ones included; an attribute that is [None] on the object
    is left out when it is optional. *)
Definition group_wire (g : ApiRoleConfigGroup (World := World)) : json :=
  JObj ([("name", json_of_pyval (rcg_name g));
         ("displayName", json_of_pyval (rcg_displayName g));
         ("roleType", json_of_pyval (rcg_roleType g))]
        ++ match rcg_config g with
           | Some c => [("config", c)]
           | None => []
           end
        ++ match rcg_base g with
           | Some b => [("base", JBool b)]
           | None => []
           end
        ++ match rcg_serviceRef g with
           | Some ref =>
               [("serviceRef",
                 JObj [("clusterName", json_of_pyval (clusterName ref));
                       ("serviceName", json_of_pyval (serviceName ref))])]
           | None => []
           end)%list.

(** A list of groups as the server sends it, in an envelope. *)
Definition groups_wire (groups : list (ApiRoleConfigGroup (World := World)))
  : json :=
  JObj [("items", JArr (map group_wire groups))].

(** A configuration as the server lists it: one item per key, holding the
    key as [name] and its value as [value]. *)
Definition config_wire (entries : list (string * string)) : json :=
  JObj [("items",
         JArr (map (fun kv => JObj [("name", JStr (fst kv));
                                    ("value", JStr (snd kv))])
                   entries))].




End Reference.

(** ** Test doubles *)

Module Fake.

(** A serializer for the examples: compact separators as in
    [json.dumps], no escaping. *)
Definition quote : string := String (ascii_of_nat 34) EmptyString.

Fixpoint dumps (j : json) : string :=
  match j with
  | JNull => "null"
  | JBool true => "true"
  | JBool false => "false"
  | JNum n => DecimalString.NilZero.string_of_int (Z.to_int n)
  | JStr s => quote ++ s ++ quote
  | JArr items => "[" ++ String.concat ", " (map dumps items) ++ "]"
  | JObj fields =>
      "{" ++ String.concat ", "
               (map (fun kv => quote ++ fst kv ++ quote ++ ": "
                                 ++ dumps (snd kv)) fields)
          ++ "}"
  end.

(** A stateless transport that answers every request with [body]. *)
Definition constant (body : json) : Resource (World := unit) :=
  fun _ w => (Ok body, w).

(** A transport that refuses every request. *)
Definition failing (status : Z) : Resource (World := unit) :=
  fun _ w => (Raise (TransportError status "error"), w).

Definition fresh : session (World := unit) := mkSession tt [].

(** The fixture of the specification: one item named [k] with value
    [v]. *)
Definition config_body : json :=
  JObj [("items", JArr [JObj [("name", JStr "k"); ("value", JStr "v")]])].

Definition ref1 : ApiServiceRef := mkServiceRef (PyStr "c1") (PyStr "hdfs").

(** A group as read from a server that answers with [body]. *)
Definition group1 (body : json) : ApiRoleConfigGroup :=
  mkGroup (constant body) (PyStr "g1") (PyStr "Group 1")
          (PyStr "DATANODE") None (Some false) (Some ref1).

(** The same group on the wire. *)
Definition group1_body : json :=
  JObj [("name", JStr "g1"); ("displayName", JStr "Group 1");
        ("roleType", JStr "DATANODE"); ("base", JBool false);
        ("serviceRef", JObj [("clusterName", JStr "c1");
                             ("serviceName", JStr "hdfs")])].

Definition groups_body : json := JObj [("items", JArr [group1_body])].

Definition empty_list_body : json := JObj [("items", JArr [])].

(** A second group of the same service, a base group. *)
Definition group2 (body : json) : ApiRoleConfigGroup :=
  mkGroup (constant body) (PyStr "g2") (PyStr "Group 2")
          (PyStr "DATANODE") None (Some true) (Some ref1).

Definition group2_body : json :=
  JObj [("name", JStr "g2"); ("displayName", JStr "Group 2");
        ("roleType", JStr "DATANODE"); ("base", JBool true);
        ("serviceRef", JObj [("clusterName", JStr "c1");
                             ("serviceName", JStr "hdfs")])].

Definition two_groups_body : json :=
  JObj [("items", JArr [group1_body; group2_body])].

(** A group of the cluster-management service: its reference names no
    cluster. *)
Definition mgmt_group (body : json) : ApiRoleConfigGroup :=
  mkGroup (constant body) (PyStr "mgmt-base") (PyStr "Base")
          (PyStr "HOSTMONITOR") None (Some true)
          (Some (mkServiceRef PyNone (PyStr "mgmt"))).

(** A group whose transport refuses every request. *)
Definition unreachable_group : ApiRoleConfigGroup :=
  mkGroup (failing 503) (PyStr "g1") (PyStr "Group 1") (PyStr "DATANODE")
          None (Some false) (Some ref1).

End Fake.

(** ** Paths: the builders compute the paths of the specification *)

Lemma append_empty_r (s : string) : s ++ "" = s.
Proof.
  induction s as [|c s IH]; simpl; [reflexivity | now rewrite IH].
Qed.

Lemma truthy_pyval_false (v : pyval) :
  truthy v = false <-> v = PyNone \/ v = PyStr "".
Proof.
  split.
  - destruct v as [|[|c s]]; simpl; intros H; auto; discriminate.
  - intros [-> | ->]; reflexivity.
Qed.

Lemma groups_path_ok (cluster_name service_name : pyval) :
  _get_role_config_groups_path cluster_name service_name
  = Ok (collection_path cluster_name service_name).
Proof.
  unfold _get_role_config_groups_path, collection_path.
  destruct (truthy cluster_name); reflexivity.
Qed.

Lemma group_path_ok (cluster_name service_name name : pyval) :
  _get_role_config_group_path cluster_name service_name name
  = Ok (singleton_path cluster_name service_name name).
Proof.
  unfold _get_role_config_group_path, singleton_path.
  rewrite groups_path_ok. simpl.
  now rewrite append_empty_r.
Qed.

Example path_cluster :
  _get_role_config_groups_path (PyStr "c1") (PyStr "hdfs")
  = Ok "/clusters/c1/services/hdfs/roleConfigGroups".
Proof. reflexivity. Qed.

Example path_cm :
  _get_role_config_group_path PyNone (PyStr "mgmt") (PyStr "g")
  = Ok "/cm/service/roleConfigGroups/g".
Proof. reflexivity. Qed.

(** A template with a conversion left over raises, it does not return a
    truncated path. *)
Example format_too_few :
  py_format "%s/%s" [PyStr "a"]
  = Raise (TypeError "not enough arguments for format string").
Proof. reflexivity. Qed.

Example getitem_last : py_getitem [1; 2; 3]%Z (-1) = Ok 3%Z.
Proof. reflexivity. Qed.

Example getitem_empty : py_getitem (@nil Z) 0 = Raise IndexError.
Proof. reflexivity. Qed.

(** ** Every operation is one round trip *)

Section RoundTrips.

Context {World : Type}.
Variable json_dumps : json -> string.

Implicit Types (resource_root : Resource (World := World)).
Implicit Types (s : session (World := World)).
Implicit Types (cluster_name service_name name view : pyval).

Lemma single_call_calls {A} resource_root rq (decode : json -> result A) s :
  calls (snd (single_call resource_root rq decode s)) = (calls s ++ [rq])%list.
Proof.
  unfold single_call. now destruct (resource_root rq (world s)).
Qed.

Lemma single_call_value {A} resource_root rq (decode : json -> result A) s :
  fst (single_call resource_root rq decode s)
  = rbind (fst (resource_root rq (world s))) decode.
Proof.
  unfold single_call. now destruct (resource_root rq (world s)).
Qed.

Lemma one_round_trip_intro {A} resource_root (m : M (World := World) A) rq
    (decode : json -> result A) :
  (forall s, m s = single_call resource_root rq decode s) ->
  one_round_trip resource_root m.
Proof.
  intros H. exists rq, decode. exact H.
Qed.

(** [invoke] followed by a pure decode is a [single_call]. *)
Lemma invoke_decode {A} resource_root rq (decode : json -> result A) s :
  bind (invoke resource_root rq) (fun resp => lift (decode resp)) s
  = single_call resource_root rq decode s.
Proof.
  unfold bind, invoke, lift, single_call.
  destruct (resource_root rq (world s)) as [[resp | e] w]; reflexivity.
Qed.

Ltac round_trip :=
  intros;
  unfold Resource_get, Resource_post, Resource_put, Resource_delete;
  rewrite <- invoke_decode;
  unfold bind at 1, lift at 1;
  rewrite ?groups_path_ok, ?group_path_ok;
  reflexivity.

Lemma create_role_config_groups_run resource_root service_name
    apigroup_list cluster_name s :
  create_role_config_groups json_dumps resource_root service_name
                            apigroup_list cluster_name s
  = single_call resource_root
      (mkRequest POST (collection_path cluster_name service_name) None
         (Some (json_dumps
                  (ApiList_to_json_dict ApiRoleConfigGroup_to_json_dict
                                        apigroup_list))))
      (fun resp =>
         ApiList_from_json_dict ApiRoleConfigGroup_from_json_dict resp
                                resource_root)
      s.
Proof. unfold create_role_config_groups. round_trip. Qed.

Lemma get_role_config_group_run resource_root service_name name
    cluster_name s :
  get_role_config_group resource_root service_name name cluster_name s
  = single_call resource_root
      (mkRequest GET (singleton_path cluster_name service_name name)
                 None None)
      (fun dic => ApiRoleConfigGroup_from_json_dict dic resource_root)
      s.
Proof.
  unfold get_role_config_group, _get_role_config_group. round_trip.
Qed.

Lemma get_all_role_config_groups_run resource_root service_name
    cluster_name s :
  get_all_role_config_groups resource_root service_name cluster_name s
  = single_call resource_root
      (mkRequest GET (collection_path cluster_name service_name) None None)
      (fun dic =>
         ApiList_from_json_dict ApiRoleConfigGroup_from_json_dict dic
                                resource_root)
      s.
Proof. unfold get_all_role_config_groups. round_trip. Qed.

Lemma update_role_config_group_run resource_root service_name name
    apigroup cluster_name s :
  update_role_config_group json_dumps resource_root service_name name
                           apigroup cluster_name s
  = single_call resource_root
      (mkRequest PUT (singleton_path cluster_name service_name name) None
         (Some (json_dumps (ApiRoleConfigGroup_to_json_dict apigroup))))
      (fun resp => ApiRoleConfigGroup_from_json_dict resp resource_root)
      s.
Proof. unfold update_role_config_group. round_trip. Qed.

Lemma delete_role_config_group_run resource_root service_name name
    cluster_name s :
  delete_role_config_group resource_root service_name name cluster_name s
  = single_call resource_root
      (mkRequest DELETE (singleton_path cluster_name service_name name)
                 None None)
      (fun resp => ApiRoleConfigGroup_from_json_dict resp resource_root)
      s.
Proof. unfold delete_role_config_group. round_trip. Qed.

Lemma move_roles_run resource_root service_name name role_names
    cluster_name s :
  move_roles json_dumps resource_root service_name name role_names
             cluster_name s
  = single_call resource_root
      (mkRequest PUT
         (singleton_path cluster_name service_name name ++ "/roles") None
         (Some (json_dumps (role_names_dict role_names))))
      (fun resp =>
         ApiList_from_json_dict ApiRole_from_json_dict resp resource_root)
      s.
Proof. unfold move_roles. round_trip. Qed.

Lemma move_roles_to_base_role_config_group_run resource_root service_name
    role_names cluster_name s :
  move_roles_to_base_role_config_group json_dumps resource_root
                                       service_name role_names cluster_name s
  = single_call resource_root
      (mkRequest PUT (collection_path cluster_name service_name ++ "/roles")
         None (Some (json_dumps (role_names_dict role_names))))
      (fun resp =>
         ApiList_from_json_dict ApiRole_from_json_dict resp resource_root)
      s.
Proof. unfold move_roles_to_base_role_config_group. round_trip. Qed.

End RoundTrips.

(** ** Decoders *)

Section Decoding.

Context {World : Type}.

Implicit Types (resource_root : Resource (World := World)).

Lemma str_attr_json_of_pyval (v : pyval) : str_attr (json_of_pyval v) = Ok v.
Proof. now destruct v. Qed.

Lemma map_result_map {A B C} (f : B -> result C) (g : A -> B) (h : A -> C)
    (l : list A) :
  (forall a, f (g a) = Ok (h a)) ->
  map_result f (map g l) = Ok (map h l).
Proof.
  intros E. induction l as [|a l IH]; simpl.
  - reflexivity.
  - now rewrite E, IH.
Qed.

Lemma map_result_length {A B} (f : A -> result B) (l : list A) (l' : list B) :
  map_result f l = Ok l' -> length l' = length l.
Proof.
  revert l'. induction l as [|a l IH]; simpl; intros l' H.
  - now inversion H.
  - destruct (f a) as [b|e]; simpl in H; [|discriminate].
    destruct (map_result f l) as [bs|e]; simpl in H; [|discriminate].
    inversion H; subst; simpl. now rewrite (IH bs).
Qed.


(** The role list of an envelope decodes member by member. *)
Lemma roles_wire_decode resource_root (moved : list listed_role) :
  ApiList_from_json_dict ApiRole_from_json_dict (roles_wire moved)
                         resource_root
  = Ok (mkApiList (map (role_of_wire resource_root) moved)).
Proof.
  unfold roles_wire, ApiList_from_json_dict. simpl.
  rewrite (map_result_map _ role_wire (role_of_wire resource_root)).
  - reflexivity.
  - intros [n t h]. reflexivity.
Qed.

(** A group read back from its wire form is the group itself. *)
Lemma group_wire_roundtrip (g : ApiRoleConfigGroup (World := World)) :
  ApiRoleConfigGroup_from_json_dict (group_wire g) (rcg_resource_root g)
  = Ok g.
Proof.
  destruct g as [root n d t config base ref].
  unfold group_wire, ApiRoleConfigGroup_from_json_dict,
    required_attr, base_attr, serviceRef_attr, optional_attr.
  destruct config as [c|], base as [b|], ref as [[cn sn]|]; simpl;
    rewrite ?str_attr_json_of_pyval; simpl; reflexivity.
Qed.










End Decoding.

(** ** Methods of a group *)

Section Methods.

Context {World : Type}.
Variable json_dumps : json -> string.
Variable json_to_config_full_default : bool.

Implicit Types (self : ApiRoleConfigGroup (World := World)).
Implicit Types (s : session (World := World)).


Lemma py_getitem_0_cons {A} (a : A) (l : list A) :
  py_getitem (a :: l) 0 = Ok a.
Proof.
  unfold py_getitem.
  replace (Z.of_nat (length (a :: l)) <=? 0)%Z with false; [reflexivity|].
  symmetry. apply Z.leb_gt. simpl length. lia.
Qed.

Lemma path_ok self ref :
  rcg_serviceRef self = Some ref ->
  _path self
  = Ok (singleton_path (clusterName ref) (serviceName ref) (rcg_name self)).
Proof.
  intros H. unfold _path. rewrite H. apply group_path_ok.
Qed.

Lemma path_no_ref self :
  rcg_serviceRef self = None ->
  _path self = Raise (AttributeError "clusterName").
Proof.
  intros H. unfold _path. now rewrite H.
Qed.

Lemma get_config_run self ref view s :
  rcg_serviceRef self = Some ref ->
  get_config self view s
  = single_call (rcg_resource_root self)
      (mkRequest GET
         (singleton_path (clusterName ref) (serviceName ref) (rcg_name self)
            ++ "/config")
         (if truthy view then Some [("view", view)] else None) None)
      (fun resp => json_to_config resp (py_eq_str view "full"))
      s.
Proof.
  intros H. unfold get_config, Resource_get, _get_resource_root.
  rewrite <- invoke_decode.
  unfold bind at 1, lift at 1. rewrite (path_ok _ H).
  unfold and_or_None. simpl. reflexivity.
Qed.

Lemma update_config_run self ref config s :
  rcg_serviceRef self = Some ref ->
  update_config json_dumps json_to_config_full_default self config s
  = single_call (rcg_resource_root self)
      (mkRequest PUT
         (singleton_path (clusterName ref) (serviceName ref) (rcg_name self)
            ++ "/config")
         None (Some (config_to_json json_dumps config)))
      (fun resp => json_to_config resp json_to_config_full_default)
      s.
Proof.
  intros H. unfold update_config, Resource_put, _get_resource_root.
  rewrite <- invoke_decode.
  unfold bind at 1, lift at 1. rewrite (path_ok _ H). reflexivity.
Qed.

(** Without a service reference the methods raise before any call. *)
Lemma get_config_no_ref self view s :
  rcg_serviceRef self = None ->
  get_config self view s = (Raise (AttributeError "clusterName"), s).
Proof.
  intros H. unfold get_config, bind, lift. now rewrite (path_no_ref _ H).
Qed.

Lemma update_config_no_ref self config s :
  rcg_serviceRef self = None ->
  update_config json_dumps json_to_config_full_default self config s
  = (Raise (AttributeError "clusterName"), s).
Proof.
  intros H. unfold update_config, bind, lift. now rewrite (path_no_ref _ H).
Qed.

(** The method [move_roles] is the module-level function at the group's
    own coordinates. *)
Lemma method_move_roles_run self ref roles s :
  rcg_serviceRef self = Some ref ->
  ApiRoleConfigGroup_move_roles json_dumps self roles s
  = move_roles json_dumps (rcg_resource_root self) (serviceName ref)
               (rcg_name self) roles (clusterName ref) s.
Proof.
  intros H. unfold ApiRoleConfigGroup_move_roles. now rewrite H.
Qed.

End Methods.

(** ** The properties of the specification *)

(** C1. The collection path: for a truthy [cluster_name] the cluster-scoped
    template with [cluster_name] and [service_name] substituted in that
    order; for [None] or the empty string the fixed cluster-management
    path, whatever [service_name] is. *)
Theorem get_role_config_groups_path_cases (cluster_name service_name : pyval) :
  (truthy cluster_name = true ->
   _get_role_config_groups_path cluster_name service_name
   = Ok ("/clusters/" ++ py_str cluster_name ++ "/services/"
           ++ py_str service_name ++ "/roleConfigGroups"))
  /\ (cluster_name = PyNone \/ cluster_name = PyStr "" ->
      _get_role_config_groups_path cluster_name service_name
      = Ok "/cm/service/roleConfigGroups").
Proof.
  unfold _get_role_config_groups_path. split.
  - intros ->. reflexivity.
  - intros H. apply truthy_pyval_false in H. now rewrite H.
Qed.

Lemma get_role_config_groups_path_cases_witness :
  _get_role_config_groups_path (PyStr "c1") (PyStr "hdfs")
  = Ok "/clusters/c1/services/hdfs/roleConfigGroups"
  /\ _get_role_config_groups_path PyNone (PyStr "hdfs")
     = Ok "/cm/service/roleConfigGroups"
  /\ _get_role_config_groups_path (PyStr "") (PyStr "hdfs")
     = Ok "/cm/service/roleConfigGroups".
Proof.
  split; [|split].
  - apply (proj1 (get_role_config_groups_path_cases (PyStr "c1") (PyStr "hdfs"))).
    reflexivity.
  - apply (proj2 (get_role_config_groups_path_cases PyNone (PyStr "hdfs"))).
    left. reflexivity.
  - apply (proj2 (get_role_config_groups_path_cases (PyStr "") (PyStr "hdfs"))).
    right. reflexivity.
Defined.

Section Claims.

Context {World : Type}.
Variable json_dumps : json -> string.

Implicit Types (resource_root : Resource (World := World)).
Implicit Types (self : ApiRoleConfigGroup (World := World)).
Implicit Types (s : session (World := World)).
Implicit Types (cluster_name service_name name view : pyval).

(** C2, as amended. Both role moves return exactly the roles the
    transport's response lists, in order, and compare nothing with the
    request: when the response lists only requested roles the result is
    a subset of [role_names], and when it lists fewer roles than were
    requested the caller gets that shorter list and no error. *)
Theorem move_roles_returns_listed_roles resource_root service_name name
    role_names cluster_name s (moved : list listed_role) :
  let body := Some (json_dumps (role_names_dict role_names)) in
  let to_group :=
    mkRequest PUT
      (singleton_path cluster_name service_name name ++ "/roles") None body in
  let to_base :=
    mkRequest PUT
      (collection_path cluster_name service_name ++ "/roles") None body in
  let listed := mkApiList (map (role_of_wire resource_root) moved) in
  (fst (resource_root to_group (world s)) = Ok (roles_wire moved) ->
   fst (move_roles json_dumps resource_root service_name name role_names
                   cluster_name s) = Ok listed)
  /\ (fst (resource_root to_base (world s)) = Ok (roles_wire moved) ->
      fst (move_roles_to_base_role_config_group json_dumps resource_root
             service_name role_names cluster_name s) = Ok listed)
  /\ (incl (map lr_name moved) role_names -> names_subset listed role_names)
  /\ length (objects listed) = length moved.
Proof.
  intros body to_group to_base listed.
  rewrite move_roles_run, move_roles_to_base_role_config_group_run.
  rewrite !single_call_value.
  fold body. fold to_group. fold to_base.
  split; [|split; [|split]].
  - intros H. rewrite H. unfold rbind. apply roles_wire_decode.
  - intros H. rewrite H. unfold rbind. apply roles_wire_decode.
  - intros Hincl. unfold names_subset, listed. simpl.
    intros v Hv. apply in_map_iff in Hv as [r [<- Hr]].
    apply in_map_iff in Hr as [l [<- Hl]]. simpl.
    apply in_map. apply Hincl. now apply in_map.
  - unfold listed. simpl. apply length_map.
Qed.

(** C3. [create_role_config_group] is the batch call on the one-element
    list holding the new group, followed by taking the first element of
    what it returns: an exception of the batch call reaches the caller
    unchanged, and the session, hence the log of transport calls, is the
    one the batch call left. *)
Theorem create_role_config_group_delegates resource_root service_name name
    display_name role_type cluster_name s :
  create_role_config_group json_dumps resource_root service_name name
                           display_name role_type cluster_name s
  = let (r, s') :=
      create_role_config_groups json_dumps resource_root service_name
        (mkApiList [ApiRoleConfigGroup_init resource_root name display_name
                                            role_type None])
        cluster_name s in
    (match r with
     | Ok created =>
         match objects created with
         | first :: _ => Ok first
         | [] => Raise IndexError
         end
     | Raise e => Raise e
     end, s').
Proof.
  unfold create_role_config_group, bind.
  destruct (create_role_config_groups _ _ _ _ _ _) as [[[l]|e] s'];
    [|reflexivity].
  unfold lift, ApiList_getitem. simpl objects.
  destruct l as [|g l]; [reflexivity|].
  now rewrite py_getitem_0_cons.
Qed.


(** C5. [move_roles] issues a PUT on the singleton path with [/roles]
    appended, [move_roles_to_base_role_config_group] a PUT on the
    collection path with [/roles] appended; the body of both is the
    serialization of the object whose one key [items] holds the role
    names. Each is that one request handed to the transport, and nothing
    else: result, remote state and log are those of the single call. *)
Theorem move_roles_requests resource_root service_name name role_names
    cluster_name s :
  let body := Some (json_dumps (JObj [("items", JArr (map JStr role_names))])) in
  let decode resp :=
    ApiList_from_json_dict ApiRole_from_json_dict resp resource_root in
  move_roles json_dumps resource_root service_name name role_names
             cluster_name s
  = single_call resource_root
      (mkRequest PUT
         (singleton_path cluster_name service_name name ++ "/roles")
         None body)
      decode s
  /\ move_roles_to_base_role_config_group json_dumps resource_root
       service_name role_names cluster_name s
     = single_call resource_root
         (mkRequest PUT
            (collection_path cluster_name service_name ++ "/roles")
            None body)
         decode s.
Proof.
  intros body decode.
  rewrite move_roles_run, move_roles_to_base_role_config_group_run.
  split; reflexivity.
Qed.

(** C6. Each module-level operation is exactly one round trip on the
    injected transport, whatever the arguments and the session: one
    request is handed to it once, and the result, the remote state and the
    log are those of that call. [create_role_config_group] makes no call
    of its own: it ends in the session its batch call leaves. *)
Theorem operations_one_round_trip resource_root service_name name
    cluster_name :
  (forall apigroup_list,
      one_round_trip resource_root
        (create_role_config_groups json_dumps resource_root service_name
                                   apigroup_list cluster_name))
  /\ one_round_trip resource_root
       (get_role_config_group resource_root service_name name cluster_name)
  /\ one_round_trip resource_root
       (get_all_role_config_groups resource_root service_name cluster_name)
  /\ (forall apigroup,
         one_round_trip resource_root
           (update_role_config_group json_dumps resource_root service_name
                                     name apigroup cluster_name))
  /\ one_round_trip resource_root
       (delete_role_config_group resource_root service_name name cluster_name)
  /\ (forall role_names,
         one_round_trip resource_root
           (move_roles json_dumps resource_root service_name name role_names
                       cluster_name))
  /\ (forall role_names,
         one_round_trip resource_root
           (move_roles_to_base_role_config_group json_dumps resource_root
              service_name role_names cluster_name))
  /\ (forall display_name role_type,
         one_round_trip resource_root
           (create_role_config_group json_dumps resource_root service_name
                                     name display_name role_type cluster_name)
         /\ forall s,
              snd (create_role_config_group json_dumps resource_root
                     service_name name display_name role_type cluster_name s)
              = snd (create_role_config_groups json_dumps resource_root
                       service_name
                       (mkApiList [ApiRoleConfigGroup_init resource_root name
                                     display_name role_type None])
                       cluster_name s)).
Proof.
  split; [|split; [|split; [|split; [|split; [|split; [|split]]]]]].
  - intros l. eapply one_round_trip_intro. intros s.
    apply create_role_config_groups_run.
  - eapply one_round_trip_intro. intros s. apply get_role_config_group_run.
  - eapply one_round_trip_intro. intros s.
    apply get_all_role_config_groups_run.
  - intros g. eapply one_round_trip_intro. intros s.
    apply update_role_config_group_run.
  - eapply one_round_trip_intro. intros s.
    apply delete_role_config_group_run.
  - intros l. eapply one_round_trip_intro. intros s. apply move_roles_run.
  - intros l. eapply one_round_trip_intro. intros s.
    apply move_roles_to_base_role_config_group_run.
  - intros display rt. split.
    + exists (mkRequest POST (collection_path cluster_name service_name) None
                (Some (json_dumps
                         (ApiList_to_json_dict ApiRoleConfigGroup_to_json_dict
                            (mkApiList [ApiRoleConfigGroup_init resource_root
                                          name display rt None]))))),
        (fun resp =>
           rbind (ApiList_from_json_dict ApiRoleConfigGroup_from_json_dict
                                         resp resource_root)
                 (fun created => ApiList_getitem created 0)).
      intros s. unfold create_role_config_group, bind.
      rewrite create_role_config_groups_run. unfold single_call.
      destruct (resource_root _ (world s)) as [[resp|e] w]; simpl;
        [|reflexivity].
      destruct (ApiList_from_json_dict _ resp resource_root); reflexivity.
    + intros s. unfold create_role_config_group, bind, lift.
      now destruct (create_role_config_groups _ _ _ _ _ _) as [[l|e] s'].
Qed.


(** C8. The [[0]] of [create_role_config_group] is unguarded: when the
    batch call returns an empty list the function raises [IndexError],
    and when it returns a group the batch call returned a list whose
    first element is that group. *)
Theorem create_role_config_group_needs_an_item resource_root service_name
    name display_name role_type cluster_name s :
  let batch :=
    create_role_config_groups json_dumps resource_root service_name
      (mkApiList [ApiRoleConfigGroup_init resource_root name display_name
                                          role_type None])
      cluster_name s in
  let out :=
    create_role_config_group json_dumps resource_root service_name name
                             display_name role_type cluster_name s in
  (fst batch = Ok (mkApiList []) -> fst out = Raise IndexError)
  /\ (forall g, fst out = Ok g ->
                exists rest, fst batch = Ok (mkApiList (g :: rest))).
Proof.
  intros batch out. unfold out, batch, create_role_config_group, bind.
  destruct (create_role_config_groups _ _ _ _ _ _) as [[[l]|e] s'];
    simpl fst; split.
  - intros H. inversion H; subst. reflexivity.
  - intros g. unfold lift, ApiList_getitem. simpl.
    destruct l as [|g' l]; [discriminate|].
    rewrite py_getitem_0_cons. intros H. inversion H; subst. now exists l.
  - discriminate.
  - discriminate.
Qed.

(** C9. In [get_config] a falsy [view], [None] or the empty string, sends
    no parameters; the rich decode is selected exactly for the string
    ['full']; any other truthy [view] is forwarded as the parameter
    [view] and the body is decoded in summary mode. *)
Theorem get_config_view_cases self ref view s :
  rcg_serviceRef self = Some ref ->
  let path :=
    singleton_path (clusterName ref) (serviceName ref) (rcg_name self)
      ++ "/config" in
  let run params full :=
    single_call (rcg_resource_root self) (mkRequest GET path params None)
                (fun resp => json_to_config resp full) s in
  (view = PyNone \/ view = PyStr "" ->
   get_config self view s = run None false)
  /\ (view = PyStr "full" ->
      get_config self view s = run (Some [("view", view)]) true)
  /\ (truthy view = true -> view <> PyStr "full" ->
      get_config self view s = run (Some [("view", view)]) false).
Proof.
  intros Href path run. unfold run, path.
  rewrite (get_config_run _ _ _ Href).
  split; [|split].
  - intros [-> | ->]; reflexivity.
  - intros ->. reflexivity.
  - intros Ht Hfull. rewrite Ht.
    replace (py_eq_str view "full") with false; [reflexivity|].
    destruct view as [|v]; [reflexivity|]. simpl.
    symmetry. apply String.eqb_neq. congruence.
Qed.

End Claims.

(** ** The properties at concrete transports *)

(** C2 as stated fails: the client decodes whatever the transport lists.
    Asked to move [r1], a transport that answers with [r9] makes both
    functions return [r9], which was not requested. *)
Lemma move_roles_subset_counterexample :
  let stray := Fake.constant (roles_wire [mkListed "r9" "DATANODE" "h1"]) in
  let returned :=
    mkApiList [mkRole stray (PyStr "r9") (PyStr "DATANODE") (PyStr "h1")] in
  fst (move_roles Fake.dumps stray (PyStr "hdfs") (PyStr "g1") ["r1"]
                  (PyStr "c1") Fake.fresh) = Ok returned
  /\ fst (move_roles_to_base_role_config_group Fake.dumps stray (PyStr "hdfs")
            ["r1"] (PyStr "c1") Fake.fresh) = Ok returned
  /\ ~ names_subset returned ["r1"].
Proof.
  intros stray returned. split; [reflexivity | split; [reflexivity|]].
  intros H. specialize (H (PyStr "r9") (or_introl eq_refl)).
  destruct H as [H | []]. discriminate.
Qed.

(** Two roles requested, one listed by the transport: the caller gets the
    one, without error. And a listed role that was not requested comes
    back all the same. *)
Lemma move_roles_returns_listed_roles_witness :
  let partial := Fake.constant (roles_wire [mkListed "r1" "DATANODE" "h1"]) in
  let listed :=
    mkApiList [mkRole partial (PyStr "r1") (PyStr "DATANODE") (PyStr "h1")] in
  fst (move_roles Fake.dumps partial (PyStr "hdfs") (PyStr "g1") ["r1"; "r2"]
                  (PyStr "c1") Fake.fresh) = Ok listed
  /\ fst (move_roles_to_base_role_config_group Fake.dumps partial
            (PyStr "hdfs") ["r1"; "r2"] (PyStr "c1") Fake.fresh) = Ok listed
  /\ names_subset listed ["r1"; "r2"]
  /\ fst (move_roles Fake.dumps partial (PyStr "hdfs") (PyStr "g1") ["r7"]
                     (PyStr "c1") Fake.fresh) = Ok listed.
Proof.
  intros partial listed.
  destruct (@move_roles_returns_listed_roles unit Fake.dumps partial
              (PyStr "hdfs") (PyStr "g1") ["r1"; "r2"] (PyStr "c1") Fake.fresh
              [mkListed "r1" "DATANODE" "h1"])
    as [Hgroup [Hbase [Hsub _]]].
  destruct (@move_roles_returns_listed_roles unit Fake.dumps partial
              (PyStr "hdfs") (PyStr "g1") ["r7"] (PyStr "c1") Fake.fresh
              [mkListed "r1" "DATANODE" "h1"])
    as [Hother _].
  split; [|split; [|split]].
  - apply Hgroup. reflexivity.
  - apply Hbase. reflexivity.
  - apply Hsub. intros x [<- | []]. left. reflexivity.
  - apply Hother. reflexivity.
Defined.



Lemma create_role_config_group_needs_an_item_witness :
  fst (create_role_config_group Fake.dumps (Fake.constant Fake.empty_list_body)
         (PyStr "hdfs") (PyStr "g1") (PyStr "Group 1") (PyStr "DATANODE")
         (PyStr "c1") Fake.fresh)
  = Raise IndexError
  /\ exists rest,
       fst (create_role_config_groups Fake.dumps
              (Fake.constant Fake.groups_body) (PyStr "hdfs")
              (mkApiList [ApiRoleConfigGroup_init
                            (Fake.constant Fake.groups_body) (PyStr "g1")
                            (PyStr "Group 1") (PyStr "DATANODE") None])
              (PyStr "c1") Fake.fresh)
       = Ok (mkApiList (Fake.group1 Fake.groups_body :: rest)).
Proof.
  split.
  - apply (proj1 (@create_role_config_group_needs_an_item unit Fake.dumps
                    (Fake.constant Fake.empty_list_body) (PyStr "hdfs")
                    (PyStr "g1") (PyStr "Group 1") (PyStr "DATANODE")
                    (PyStr "c1") Fake.fresh)).
    reflexivity.
  - apply (proj2 (@create_role_config_group_needs_an_item unit Fake.dumps
                    (Fake.constant Fake.groups_body) (PyStr "hdfs")
                    (PyStr "g1") (PyStr "Group 1") (PyStr "DATANODE")
                    (PyStr "c1") Fake.fresh)).
    reflexivity.
Defined.

Lemma get_config_view_cases_witness :
  let self := Fake.group1 Fake.config_body in
  let path := "/clusters/c1/services/hdfs/roleConfigGroups/g1/config" in
  let plain := [("k", PlainValue "v")] in
  let rich :=
    [("k", RichValue (mkConfig "k" (PyStr "v") PyNone PyNone PyNone))] in
  get_config self (PyStr "") Fake.fresh
  = (Ok plain, mkSession tt [mkRequest GET path None None])
  /\ get_config self (PyStr "full") Fake.fresh
     = (Ok rich,
        mkSession tt [mkRequest GET path (Some [("view", PyStr "full")]) None])
  /\ get_config self (PyStr "brief") Fake.fresh
     = (Ok plain,
        mkSession tt [mkRequest GET path (Some [("view", PyStr "brief")]) None]).
Proof.
  intros self path plain rich. split; [|split].
  - destruct (@get_config_view_cases unit self Fake.ref1 (PyStr "") Fake.fresh
                eq_refl) as [H _].
    rewrite H; [reflexivity | right; reflexivity].
  - destruct (@get_config_view_cases unit self Fake.ref1 (PyStr "full")
                Fake.fresh eq_refl) as [_ [H _]].
    rewrite H; reflexivity.
  - destruct (@get_config_view_cases unit self Fake.ref1 (PyStr "brief")
                Fake.fresh eq_refl) as [_ [_ H]].
    rewrite H; [reflexivity | reflexivity | discriminate].
Defined.

(** A failure of the transport reaches the caller of the wrapper as it is,
    after the one request of the batch call. *)
Example create_role_config_group_transport_error :
  create_role_config_group Fake.dumps (Fake.failing 500) (PyStr "hdfs")
    (PyStr "g1") (PyStr "Group 1") (PyStr "DATANODE") default_cluster_name
    Fake.fresh
  = (Raise (TransportError 500 "error"),
     mkSession tt
       [mkRequest POST "/clusters/default/services/hdfs/roleConfigGroups" None
          (Some (Fake.dumps
                   (JObj [("items",
                           JArr [JObj [("name", JStr "g1");
                                       ("displayName", JStr "Group 1");
                                       ("roleType", JStr "DATANODE");
                                       ("config", JNull)]])])))]).
Proof. reflexivity. Qed.

(** A group built by the client has no service reference: its methods
    raise before they reach the transport. *)
Example get_config_without_service_ref :
  get_config
    (ApiRoleConfigGroup_init (Fake.constant Fake.config_body) (PyStr "g1")
                             (PyStr "Group 1") (PyStr "DATANODE") None)
    PyNone Fake.fresh
  = (Raise (AttributeError "clusterName"), Fake.fresh).
Proof. reflexivity. Qed.

(** The cluster-management service has no cluster: a group whose service
    reference carries no cluster name is addressed under the fixed path. *)
Example get_all_roles_cm_service :
  calls (snd (get_all_roles
                (mkGroup (Fake.constant (roles_wire [])) (PyStr "mgmt-base")
                         (PyStr "Base") (PyStr "HOSTMONITOR") None (Some true)
                         (Some (mkServiceRef PyNone (PyStr "mgmt"))))
                Fake.fresh))
  = [mkRequest GET "/cm/service/roleConfigGroups/mgmt-base/roles" None None].
Proof. reflexivity. Qed.

(** ** Further properties of the module *)

Lemma string_app_assoc (a b c : string) : (a ++ b) ++ c = a ++ (b ++ c).
Proof.
  induction a as [|x a IH]; simpl; [reflexivity | now rewrite IH].
Qed.

Lemma collection_path_falsy (cluster_name service_name : pyval) :
  truthy cluster_name = false ->
  collection_path cluster_name service_name = CM_ROLE_CONFIG_GROUPS_PATH.
Proof.
  intros H. unfold collection_path. now rewrite H.
Qed.

Lemma singleton_path_falsy (cluster_name service_name name : pyval) :
  truthy cluster_name = false ->
  singleton_path cluster_name service_name name
  = CM_ROLE_CONFIG_GROUPS_PATH ++ "/" ++ py_str name.
Proof.
  intros H. unfold singleton_path. now rewrite collection_path_falsy.
Qed.

Section MoreRoundTrips.

Context {World : Type}.
Variable json_dumps : json -> string.

Implicit Types (resource_root : Resource (World := World)).
Implicit Types (self : ApiRoleConfigGroup (World := World)).
Implicit Types (s : session (World := World)).
Implicit Types (cluster_name service_name name view : pyval).

Lemma single_call_raise {A} resource_root rq (decode : json -> result A) s e :
  fst (resource_root rq (world s)) = Raise e ->
  fst (single_call resource_root rq decode s) = Raise e.
Proof.
  intros H. rewrite single_call_value. now rewrite H.
Qed.

(** The wrapper is itself one round trip whose decoder ends with the
    indexing. *)
Lemma create_role_config_group_run resource_root service_name name
    display_name role_type cluster_name s :
  create_role_config_group json_dumps resource_root service_name name
                           display_name role_type cluster_name s
  = single_call resource_root
      (mkRequest POST (collection_path cluster_name service_name) None
         (Some (json_dumps
                  (ApiList_to_json_dict ApiRoleConfigGroup_to_json_dict
                     (mkApiList [ApiRoleConfigGroup_init resource_root name
                                   display_name role_type None])))))
      (fun resp =>
         rbind (ApiList_from_json_dict ApiRoleConfigGroup_from_json_dict resp
                                       resource_root)
               (fun created => ApiList_getitem created 0))
      s.
Proof.
  unfold create_role_config_group, bind.
  rewrite create_role_config_groups_run. unfold single_call.
  destruct (resource_root _ (world s)) as [[resp|e] w]; simpl; [|reflexivity].
  destruct (ApiList_from_json_dict _ resp resource_root); reflexivity.
Qed.

Lemma get_all_roles_run self ref s :
  rcg_serviceRef self = Some ref ->
  get_all_roles self s
  = single_call (rcg_resource_root self)
      (mkRequest GET
         (singleton_path (clusterName ref) (serviceName ref) (rcg_name self)
            ++ "/roles")
         None None)
      (fun resp =>
         ApiList_from_json_dict ApiRole_from_json_dict resp
                                (rcg_resource_root self))
      s.
Proof.
  intros H. unfold get_all_roles, Resource_get, _get_resource_root.
  rewrite <- invoke_decode.
  unfold bind at 1, lift at 1. rewrite (path_ok _ H). reflexivity.
Qed.

Lemma get_all_roles_no_ref self s :
  rcg_serviceRef self = None ->
  get_all_roles self s = (Raise (AttributeError "clusterName"), s).
Proof.
  intros H. unfold get_all_roles, bind, lift. now rewrite (path_no_ref _ H).
Qed.

(** A list of groups read back from its wire form, by the root that holds
    them, is the list itself. *)
Lemma groups_wire_decode resource_root
    (groups : list (ApiRoleConfigGroup (World := World))) :
  Forall (fun g => rcg_resource_root g = resource_root) groups ->
  ApiList_from_json_dict ApiRoleConfigGroup_from_json_dict
                         (groups_wire groups) resource_root
  = Ok (mkApiList groups).
Proof.
  intros H. unfold groups_wire, ApiList_from_json_dict.
  simpl dict_get. cbv iota.
  replace (map_result
             (fun x => ApiRoleConfigGroup_from_json_dict x resource_root)
             (map group_wire groups))
    with (Ok (A := list ApiRoleConfigGroup) groups); [reflexivity|].
  symmetry. induction H as [|g groups Hg _ IH]; [reflexivity|].
  cbn [map map_result]. rewrite <- Hg at 1.
  rewrite group_wire_roundtrip. cbn [rbind]. now rewrite IH.
Qed.

End MoreRoundTrips.

(** X1. [_get_role_config_group_path] never raises: for every cluster,
    service and name it returns the collection path of the cluster and
    service, a slash, and [str(name)]; a [None] name gives the segment
    [None]. *)
Theorem get_role_config_group_path_total (cluster_name service_name name : pyval) :
  exists p,
    _get_role_config_groups_path cluster_name service_name = Ok p
    /\ _get_role_config_group_path cluster_name service_name name
       = Ok (p ++ "/" ++ py_str name)
    /\ _get_role_config_group_path cluster_name service_name PyNone
       = Ok (p ++ "/None").
Proof.
  exists (collection_path cluster_name service_name).
  rewrite groups_path_ok, !group_path_ok. repeat split.
Qed.

(** X2. Names go into the path as they are: the path of a name followed by
    a suffix is the path of the name followed by that suffix. *)
Theorem group_path_name_verbatim (cluster_name service_name : pyval)
    (n suffix : string) :
  _get_role_config_group_path cluster_name service_name (PyStr (n ++ suffix))
  = rmap (fun p => p ++ suffix)
         (_get_role_config_group_path cluster_name service_name (PyStr n)).
Proof.
  rewrite !group_path_ok. unfold singleton_path, rmap, rbind. simpl py_str.
  f_equal. rewrite !string_app_assoc. simpl. reflexivity.
Qed.

Section Extras.

Context {World : Type}.
Variable json_dumps : json -> string.
Variable json_to_config_full_default : bool.

Implicit Types (resource_root : Resource (World := World)).
Implicit Types (self : ApiRoleConfigGroup (World := World)).
Implicit Types (s : session (World := World)).
Implicit Types (cluster_name service_name name view : pyval).

(** X3. Fetching a group whose name ends in [/config] is one round trip
    with the very request that [get_config], without a view, hands to the
    transport for the group named by what precedes it: same verb, same
    path, no parameters, no body. Only the decoding of the answer
    differs. *)
Theorem get_group_named_config_is_get_config resource_root cluster_name
    service_name (n : string) display role config base s :
  let rq :=
    mkRequest GET
      (singleton_path cluster_name service_name (PyStr n) ++ "/config")
      None None in
  get_role_config_group resource_root service_name (PyStr (n ++ "/config"))
                        cluster_name s
  = single_call resource_root rq
      (fun dic => ApiRoleConfigGroup_from_json_dict dic resource_root) s
  /\ get_config
       (mkGroup resource_root (PyStr n) display role config base
                (Some (mkServiceRef cluster_name service_name)))
       PyNone s
     = single_call resource_root rq
         (fun resp => json_to_config resp false) s.
Proof.
  intros rq. split.
  - rewrite get_role_config_group_run. unfold rq, singleton_path.
    simpl py_str. now rewrite !string_app_assoc.
  - now rewrite (get_config_run _ (ref := mkServiceRef cluster_name
                                                       service_name)).
Qed.

(** X4. A group named [roles] is updated by a PUT on the path on which
    [move_roles_to_base_role_config_group] sends its PUT: both are one
    round trip on that path, and the two requests differ in their bodies
    only. *)
Theorem group_named_roles_shares_base_move_path resource_root service_name
    apigroup role_names cluster_name s :
  let p := collection_path cluster_name service_name ++ "/roles" in
  update_role_config_group json_dumps resource_root service_name
                           (PyStr "roles") apigroup cluster_name s
  = single_call resource_root
      (mkRequest PUT p None
         (Some (json_dumps (ApiRoleConfigGroup_to_json_dict apigroup))))
      (fun resp => ApiRoleConfigGroup_from_json_dict resp resource_root) s
  /\ move_roles_to_base_role_config_group json_dumps resource_root
       service_name role_names cluster_name s
     = single_call resource_root
         (mkRequest PUT p None
            (Some (json_dumps (role_names_dict role_names))))
         (fun resp =>
            ApiList_from_json_dict ApiRole_from_json_dict resp resource_root)
         s.
Proof.
  intros p.
  rewrite update_role_config_group_run,
    move_roles_to_base_role_config_group_run.
  split; reflexivity.
Qed.

(** X5. With a falsy [cluster_name] no module-level operation depends on
    [service_name]: run from the same session with two service names, each
    operation sends the same request and returns the same result. *)
Theorem cm_operations_ignore_service_name resource_root service_name
    service_name' name cluster_name s :
  truthy cluster_name = false ->
  (forall apigroup_list,
      create_role_config_groups json_dumps resource_root service_name
                                apigroup_list cluster_name s
      = create_role_config_groups json_dumps resource_root service_name'
                                  apigroup_list cluster_name s)
  /\ (forall display_name role_type,
         create_role_config_group json_dumps resource_root service_name name
                                  display_name role_type cluster_name s
         = create_role_config_group json_dumps resource_root service_name'
                                    name display_name role_type cluster_name s)
  /\ get_role_config_group resource_root service_name name cluster_name s
     = get_role_config_group resource_root service_name' name cluster_name s
  /\ get_all_role_config_groups resource_root service_name cluster_name s
     = get_all_role_config_groups resource_root service_name' cluster_name s
  /\ (forall apigroup,
         update_role_config_group json_dumps resource_root service_name name
                                  apigroup cluster_name s
         = update_role_config_group json_dumps resource_root service_name'
                                    name apigroup cluster_name s)
  /\ delete_role_config_group resource_root service_name name cluster_name s
     = delete_role_config_group resource_root service_name' name cluster_name s
  /\ (forall role_names,
         move_roles json_dumps resource_root service_name name role_names
                    cluster_name s
         = move_roles json_dumps resource_root service_name' name role_names
                      cluster_name s)
  /\ (forall role_names,
         move_roles_to_base_role_config_group json_dumps resource_root
           service_name role_names cluster_name s
         = move_roles_to_base_role_config_group json_dumps resource_root
             service_name' role_names cluster_name s).
Proof.
  intros H.
  repeat split; intros;
    rewrite ?create_role_config_groups_run, ?create_role_config_group_run,
      ?get_role_config_group_run, ?get_all_role_config_groups_run,
      ?update_role_config_group_run, ?delete_role_config_group_run,
      ?move_roles_run, ?move_roles_to_base_role_config_group_run;
    rewrite ?singleton_path_falsy, ?collection_path_falsy by exact H;
    reflexivity.
Qed.

(** X6. No module-level operation catches what the transport raises: when
    the transport raises [e], every operation raises [e]. *)
Theorem transport_error_propagates resource_root service_name name
    cluster_name s e :
  (forall rq, fst (resource_root rq (world s)) = Raise e) ->
  (forall apigroup_list,
      fst (create_role_config_groups json_dumps resource_root service_name
             apigroup_list cluster_name s) = Raise e)
  /\ (forall display_name role_type,
         fst (create_role_config_group json_dumps resource_root service_name
                name display_name role_type cluster_name s) = Raise e)
  /\ fst (get_role_config_group resource_root service_name name cluster_name s)
     = Raise e
  /\ fst (get_all_role_config_groups resource_root service_name cluster_name s)
     = Raise e
  /\ (forall apigroup,
         fst (update_role_config_group json_dumps resource_root service_name
                name apigroup cluster_name s) = Raise e)
  /\ fst (delete_role_config_group resource_root service_name name
            cluster_name s) = Raise e
  /\ (forall role_names,
         fst (move_roles json_dumps resource_root service_name name role_names
                cluster_name s) = Raise e)
  /\ (forall role_names,
         fst (move_roles_to_base_role_config_group json_dumps resource_root
                service_name role_names cluster_name s) = Raise e).
Proof.
  intros H.
  repeat split; intros;
    rewrite ?create_role_config_groups_run, ?create_role_config_group_run,
      ?get_role_config_group_run, ?get_all_role_config_groups_run,
      ?update_role_config_group_run, ?delete_role_config_group_run,
      ?move_roles_run, ?move_roles_to_base_role_config_group_run;
    apply single_call_raise, H.
Qed.

(** X7. A group without a service reference, as the constructor builds
    it, cannot use its methods: each of them raises [AttributeError]
    before it reaches the transport, and leaves the session as it was. *)
Theorem methods_need_service_ref self s :
  rcg_serviceRef self = None ->
  exists attr,
    (forall view, get_config self view s = (Raise (AttributeError attr), s))
    /\ (forall config,
           update_config json_dumps json_to_config_full_default self config s
           = (Raise (AttributeError attr), s))
    /\ get_all_roles self s = (Raise (AttributeError attr), s)
    /\ __str__ self = Raise (AttributeError attr)
    /\ exists attr',
         forall roles,
           ApiRoleConfigGroup_move_roles json_dumps self roles s
           = (Raise (AttributeError attr'), s).
Proof.
  intros H. exists "clusterName". repeat split; intros.
  - now apply get_config_no_ref.
  - now apply update_config_no_ref.
  - now apply get_all_roles_no_ref.
  - unfold __str__. now rewrite H.
  - exists "serviceName". intros roles.
    unfold ApiRoleConfigGroup_move_roles. now rewrite H.
Qed.

(** X8. The method [move_roles] writes where [get_all_roles] reads: on a
    group with a service reference, [get_all_roles] is one round trip with
    a GET and [move_roles] one round trip with a PUT of the role names,
    both on the group's own path with [/roles] appended. *)
Theorem roles_methods_share_path self ref s :
  rcg_serviceRef self = Some ref ->
  let p :=
    singleton_path (clusterName ref) (serviceName ref) (rcg_name self)
      ++ "/roles" in
  let decode resp :=
    ApiList_from_json_dict ApiRole_from_json_dict resp
                           (rcg_resource_root self) in
  _path self = Ok (singleton_path (clusterName ref) (serviceName ref)
                                  (rcg_name self))
  /\ get_all_roles self s
     = single_call (rcg_resource_root self) (mkRequest GET p None None)
                   decode s
  /\ forall roles,
       ApiRoleConfigGroup_move_roles json_dumps self roles s
       = single_call (rcg_resource_root self)
           (mkRequest PUT p None
              (Some (json_dumps (JObj [("items", JArr (map JStr roles))]))))
           decode s.
Proof.
  intros H p decode. split; [now apply path_ok | split].
  - now rewrite (get_all_roles_run _ s H).
  - intros roles. rewrite (method_move_roles_run _ _ _ _ H).
    now rewrite move_roles_run.
Qed.

(** X9. The two reads: [get_role_config_group] sends one GET on the
    singleton path and [get_all_role_config_groups] one GET on the
    collection path, both without parameters and without body, and each
    returns the decode of what the transport answers. *)
Theorem read_requests resource_root service_name name cluster_name s :
  let one := mkRequest GET (singleton_path cluster_name service_name name)
                       None None in
  let all := mkRequest GET (collection_path cluster_name service_name)
                       None None in
  (calls (snd (get_role_config_group resource_root service_name name
                 cluster_name s)) = (calls s ++ [one])%list
   /\ fst (get_role_config_group resource_root service_name name
             cluster_name s)
      = rbind (fst (resource_root one (world s)))
              (fun dic => ApiRoleConfigGroup_from_json_dict dic resource_root))
  /\ (calls (snd (get_all_role_config_groups resource_root service_name
                    cluster_name s)) = (calls s ++ [all])%list
      /\ fst (get_all_role_config_groups resource_root service_name
                cluster_name s)
         = rbind (fst (resource_root all (world s)))
                 (fun dic =>
                    ApiList_from_json_dict ApiRoleConfigGroup_from_json_dict
                                           dic resource_root)).
Proof.
  intros one all.
  rewrite get_role_config_group_run, get_all_role_config_groups_run.
  rewrite !single_call_calls, !single_call_value. repeat split.
Qed.

(** X10. The writes: [create_role_config_groups] is one round trip with a
    POST on the collection path carrying the serialized list,
    [create_role_config_group] the same POST with the list of the one
    group built from its arguments, followed by the indexing, and
    [update_role_config_group] one round trip with a PUT on the singleton
    path of its [name] argument, whatever name the group sent carries. *)
Theorem write_requests resource_root service_name name cluster_name s :
  (forall apigroup_list,
      create_role_config_groups json_dumps resource_root service_name
                                apigroup_list cluster_name s
      = single_call resource_root
          (mkRequest POST (collection_path cluster_name service_name) None
             (Some (json_dumps
                      (ApiList_to_json_dict ApiRoleConfigGroup_to_json_dict
                                            apigroup_list))))
          (fun resp =>
             ApiList_from_json_dict ApiRoleConfigGroup_from_json_dict resp
                                    resource_root)
          s)
  /\ (forall display_name role,
         create_role_config_group json_dumps resource_root service_name name
                                  display_name role cluster_name s
         = single_call resource_root
             (mkRequest POST (collection_path cluster_name service_name) None
                (Some (json_dumps
                         (ApiList_to_json_dict ApiRoleConfigGroup_to_json_dict
                            (mkApiList
                               [mkGroup resource_root name display_name role
                                        None None None])))))
             (fun resp =>
                rbind (ApiList_from_json_dict ApiRoleConfigGroup_from_json_dict
                                              resp resource_root)
                      (fun created => ApiList_getitem created 0))
             s)
  /\ (forall apigroup,
         update_role_config_group json_dumps resource_root service_name name
                                  apigroup cluster_name s
         = single_call resource_root
             (mkRequest PUT (singleton_path cluster_name service_name name)
                None
                (Some (json_dumps (ApiRoleConfigGroup_to_json_dict apigroup))))
             (fun resp => ApiRoleConfigGroup_from_json_dict resp resource_root)
             s).
Proof.
  split; [|split]; intros.
  - apply create_role_config_groups_run.
  - apply create_role_config_group_run.
  - apply update_role_config_group_run.
Qed.

(** X11. [__str__] of a group with a service reference never raises: it
    is the class tag, the name, and the cluster and the service of the
    reference, with [None] printed for a missing cluster. *)
Theorem str_of_group self ref :
  rcg_serviceRef self = Some ref ->
  __str__ self
  = Ok ("<ApiRoleConfigGroup>: " ++ py_str (rcg_name self)
          ++ " (cluster: " ++ py_str (clusterName ref)
          ++ "; service: " ++ py_str (serviceName ref) ++ ")")
  /\ (clusterName ref = PyNone ->
      __str__ self
      = Ok ("<ApiRoleConfigGroup>: " ++ py_str (rcg_name self)
              ++ " (cluster: None; service: " ++ py_str (serviceName ref)
              ++ ")")).
Proof.
  intros H. unfold __str__. rewrite H. split.
  - reflexivity.
  - intros ->. reflexivity.
Qed.

(** X12. [create_role_config_group] returns the first group the server
    lists, whatever the arguments it built its own group from, and drops
    the groups listed after it. *)
Theorem create_role_config_group_returns_first_listed resource_root
    service_name name display_name role_type cluster_name s
    (g : ApiRoleConfigGroup (World := World)) rest :
  Forall (fun x => rcg_resource_root x = resource_root) (g :: rest) ->
  (forall rq, rq_verb rq = POST ->
              fst (resource_root rq (world s)) = Ok (groups_wire (g :: rest))) ->
  fst (create_role_config_group json_dumps resource_root service_name name
         display_name role_type cluster_name s) = Ok g.
Proof.
  intros Hroot Hresp.
  rewrite create_role_config_group_run, single_call_value.
  rewrite Hresp by reflexivity. cbn [rbind].
  rewrite (groups_wire_decode Hroot). cbn [rbind].
  unfold ApiList_getitem. simpl objects. apply py_getitem_0_cons.
Qed.

(** X13. [get_all_role_config_groups] returns every group the server
    lists, in the order listed; an empty list is returned as an empty
    list, without error. *)
Theorem get_all_role_config_groups_returns_listed resource_root service_name
    cluster_name s (groups : list (ApiRoleConfigGroup (World := World))) :
  Forall (fun x => rcg_resource_root x = resource_root) groups ->
  fst (resource_root
         (mkRequest GET (collection_path cluster_name service_name) None None)
         (world s)) = Ok (groups_wire groups) ->
  fst (get_all_role_config_groups resource_root service_name cluster_name s)
  = Ok (mkApiList groups)
  /\ (groups = [] ->
      fst (get_all_role_config_groups resource_root service_name
             cluster_name s) = Ok (mkApiList [])).
Proof.
  intros Hroot Hresp.
  rewrite get_all_role_config_groups_run, single_call_value, Hresp.
  cbn [rbind]. rewrite (groups_wire_decode Hroot).
  split; [reflexivity | intros ->; reflexivity].
Qed.

(** X14. The methods catch nothing either: on a group with a service
    reference, when the transport raises [e], [get_config],
    [update_config], [get_all_roles] and [move_roles] raise [e]. *)
Theorem method_transport_error_propagates self ref s e :
  rcg_serviceRef self = Some ref ->
  (forall rq, fst (rcg_resource_root self rq (world s)) = Raise e) ->
  (forall view, fst (get_config self view s) = Raise e)
  /\ (forall config,
         fst (update_config json_dumps json_to_config_full_default self
                config s) = Raise e)
  /\ fst (get_all_roles self s) = Raise e
  /\ (forall roles,
         fst (ApiRoleConfigGroup_move_roles json_dumps self roles s) = Raise e).
Proof.
  intros Href H. repeat split; intros.
  - rewrite (get_config_run _ _ _ Href). apply single_call_raise, H.
  - rewrite (update_config_run _ _ _ _ _ Href). apply single_call_raise, H.
  - rewrite (get_all_roles_run _ s Href). apply single_call_raise, H.
  - rewrite (method_move_roles_run _ _ _ _ Href), move_roles_run.
    apply single_call_raise, H.
Qed.

(** X15. [update_config] on a group with a service reference is one round
    trip: a PUT on the group's own path with [/config] appended, without
    parameters, whose body is the encoding of the mapping passed in; the
    answer is decoded by [json_to_config] with the flag left out, that is
    at the decoder's default, whichever it is. *)
Theorem update_config_round_trip self ref (config : list (string * pyval)) s :
  rcg_serviceRef self = Some ref ->
  update_config json_dumps json_to_config_full_default self config s
  = single_call (rcg_resource_root self)
      (mkRequest PUT
         (singleton_path (clusterName ref) (serviceName ref) (rcg_name self)
            ++ "/config")
         None (Some (config_to_json json_dumps config)))
      (fun resp => json_to_config resp json_to_config_full_default)
      s.
Proof.
  intros Href. now apply update_config_run.
Qed.

End Extras.

Lemma cm_operations_ignore_service_name_witness :
  let resource_root := Fake.constant Fake.group1_body in
  get_role_config_group resource_root (PyStr "hdfs") (PyStr "g1") PyNone
                        Fake.fresh
  = get_role_config_group resource_root (PyStr "mgmt") (PyStr "g1") PyNone
                          Fake.fresh
  /\ move_roles Fake.dumps resource_root (PyStr "hdfs") (PyStr "g1") ["r1"]
                (PyStr "") Fake.fresh
     = move_roles Fake.dumps resource_root (PyStr "mgmt") (PyStr "g1") ["r1"]
                  (PyStr "") Fake.fresh.
Proof.
  intros resource_root. split.
  - apply (@cm_operations_ignore_service_name unit Fake.dumps resource_root
             (PyStr "hdfs") (PyStr "mgmt") (PyStr "g1") PyNone Fake.fresh).
    reflexivity.
  - apply (@cm_operations_ignore_service_name unit Fake.dumps resource_root
             (PyStr "hdfs") (PyStr "mgmt") (PyStr "g1") (PyStr "") Fake.fresh).
    reflexivity.
Defined.

Lemma transport_error_propagates_witness :
  let e := TransportError 503 "error" in
  fst (delete_role_config_group (Fake.failing 503) (PyStr "hdfs") (PyStr "g1")
         (PyStr "c1") Fake.fresh) = Raise e
  /\ fst (create_role_config_group Fake.dumps (Fake.failing 503) (PyStr "hdfs")
            (PyStr "g1") (PyStr "Group 1") (PyStr "DATANODE") (PyStr "c1")
            Fake.fresh) = Raise e.
Proof.
  intros e.
  assert (H := @transport_error_propagates unit Fake.dumps (Fake.failing 503)
                 (PyStr "hdfs") (PyStr "g1") (PyStr "c1") Fake.fresh e
                 (fun rq => eq_refl)).
  split.
  - apply H.
  - apply H.
Defined.

Lemma methods_need_service_ref_witness :
  let self :=
    ApiRoleConfigGroup_init (Fake.constant Fake.config_body) (PyStr "g1")
                            (PyStr "Group 1") (PyStr "DATANODE") None in
  exists attr,
    get_config self (PyStr "full") Fake.fresh
    = (Raise (AttributeError attr), Fake.fresh)
    /\ get_all_roles self Fake.fresh = (Raise (AttributeError attr), Fake.fresh).
Proof.
  intros self.
  destruct (@methods_need_service_ref unit Fake.dumps true self Fake.fresh
              eq_refl)
    as [attr [Hget [_ [Hroles _]]]].
  exists attr. split; [apply Hget | exact Hroles].
Defined.

Lemma roles_methods_share_path_witness :
  let listed := [mkListed "r1" "DATANODE" "h1"] in
  let self := Fake.group1 (roles_wire listed) in
  let p := "/clusters/c1/services/hdfs/roleConfigGroups/g1/roles" in
  let roles := mkApiList (map (role_of_wire (rcg_resource_root self)) listed) in
  get_all_roles self Fake.fresh
  = (Ok roles, mkSession tt [mkRequest GET p None None])
  /\ ApiRoleConfigGroup_move_roles Fake.dumps self ["r1"] Fake.fresh
     = (Ok roles,
        mkSession tt
          [mkRequest PUT p None
             (Some (Fake.dumps (JObj [("items", JArr [JStr "r1"])])))]).
Proof.
  intros listed self p roles.
  destruct (@roles_methods_share_path unit Fake.dumps self Fake.ref1 Fake.fresh
              eq_refl) as [_ [Hget Hmove]].
  split.
  - rewrite Hget. reflexivity.
  - rewrite (Hmove ["r1"]). reflexivity.
Defined.

Lemma str_of_group_witness :
  __str__ (Fake.group1 JNull)
  = Ok "<ApiRoleConfigGroup>: g1 (cluster: c1; service: hdfs)"
  /\ __str__ (Fake.mgmt_group JNull)
     = Ok "<ApiRoleConfigGroup>: mgmt-base (cluster: None; service: mgmt)".
Proof.
  split.
  - apply (proj1 (@str_of_group unit (Fake.group1 JNull) Fake.ref1 eq_refl)).
  - apply (proj2 (@str_of_group unit (Fake.mgmt_group JNull)
                    (mkServiceRef PyNone (PyStr "mgmt")) eq_refl)).
    reflexivity.
Defined.

Lemma create_role_config_group_returns_first_listed_witness :
  let resource_root := Fake.constant Fake.two_groups_body in
  fst (create_role_config_group Fake.dumps resource_root (PyStr "hdfs")
         (PyStr "new") (PyStr "New group") (PyStr "NAMENODE") (PyStr "c1")
         Fake.fresh)
  = Ok (Fake.group1 Fake.two_groups_body).
Proof.
  intros resource_root.
  apply (@create_role_config_group_returns_first_listed unit Fake.dumps
           resource_root (PyStr "hdfs") (PyStr "new") (PyStr "New group")
           (PyStr "NAMENODE") (PyStr "c1") Fake.fresh
           (Fake.group1 Fake.two_groups_body)
           [Fake.group2 Fake.two_groups_body]).
  - repeat constructor.
  - intros rq _. reflexivity.
Defined.

Lemma get_all_role_config_groups_returns_listed_witness :
  fst (get_all_role_config_groups (Fake.constant Fake.two_groups_body)
         (PyStr "hdfs") (PyStr "c1") Fake.fresh)
  = Ok (mkApiList [Fake.group1 Fake.two_groups_body;
                   Fake.group2 Fake.two_groups_body])
  /\ fst (get_all_role_config_groups (Fake.constant Fake.empty_list_body)
            (PyStr "hdfs") (PyStr "c1") Fake.fresh)
     = Ok (mkApiList []).
Proof.
  split.
  - apply (@get_all_role_config_groups_returns_listed unit
             (Fake.constant Fake.two_groups_body) (PyStr "hdfs") (PyStr "c1")
             Fake.fresh
             [Fake.group1 Fake.two_groups_body;
              Fake.group2 Fake.two_groups_body]).
    + repeat constructor.
    + reflexivity.
  - apply (@get_all_role_config_groups_returns_listed unit
             (Fake.constant Fake.empty_list_body) (PyStr "hdfs") (PyStr "c1")
             Fake.fresh []).
    + constructor.
    + reflexivity.
    + reflexivity.
Defined.

Lemma method_transport_error_propagates_witness :
  let e := TransportError 503 "error" in
  fst (get_config Fake.unreachable_group (PyStr "summary") Fake.fresh) = Raise e
  /\ fst (ApiRoleConfigGroup_move_roles Fake.dumps Fake.unreachable_group
            ["r1"] Fake.fresh) = Raise e.
Proof.
  intros e.
  assert (H := @method_transport_error_propagates unit Fake.dumps false
                 Fake.unreachable_group Fake.ref1 Fake.fresh e eq_refl
                 (fun rq => eq_refl)).
  split.
  - apply H.
  - apply H.
Defined.

(** The same answer, read with either value of the decoder's default. *)
Lemma update_config_round_trip_witness :
  let self := Fake.group1 (config_wire [("k", "v2")]) in
  let sent :=
    mkSession tt
      [mkRequest PUT "/clusters/c1/services/hdfs/roleConfigGroups/g1/config"
         None (Some (config_to_json Fake.dumps [("k", PyStr "v2")]))] in
  update_config Fake.dumps false self [("k", PyStr "v2")] Fake.fresh
  = (Ok [("k", PlainValue "v2")], sent)
  /\ update_config Fake.dumps true self [("k", PyStr "v2")] Fake.fresh
     = (Ok [("k", RichValue (mkConfig "k" (PyStr "v2") PyNone PyNone PyNone))],
        sent).
Proof.
  intros self sent. split.
  - rewrite (@update_config_round_trip unit Fake.dumps false self Fake.ref1
               [("k", PyStr "v2")] Fake.fresh eq_refl).
    reflexivity.
  - rewrite (@update_config_round_trip unit Fake.dumps true self Fake.ref1
               [("k", PyStr "v2")] Fake.fresh eq_refl).
    reflexivity.
Defined.
